(** * TaglessCRM: checkpointed event delivery, DAG wiring and layered
      configuration lookup

    A shallow embedding of
    - [plugins/pipeline_plugins/operators/data_connector_operator_v2.py]
      ([BaseDataConnectorOperator.execute]),
    - [plugins/pipeline_plugins/operators/data_connector_taskgroup.py]
      ([FetchDataTask], [SendEventsTask], [MonitorTask]),
    - [dags/base_dag.py] ([BaseDag.create_dag], [BaseDag.get_variable_value]),
    followed by the properties proved about them.

    Python objects are records, collaborators the operators only call
    (hooks, the monitoring module, Airflow's Variable table) are records of
    functions, exceptions are a sum type, and every call to a collaborator
    that has an effect is logged in a trace. *)

From stdpp Require Import gmap strings list fin_maps.
From Stdlib Require Import ZArith Ascii DecimalString.

Local Open Scope Z_scope.
Local Open Scope string_scope.
Local Open Scope list_scope.

(** ** Exceptions and results *)

Inductive exn : Type :=
| MonitoringValueError       (* errors.MonitoringValueError *)
| DAGError (msg : string)    (* errors.DAGError *)
| AttributeError (attr : string)
| TypeError
| ValueError
| OtherError (name : string).

#[export] Instance exn_eq_dec : EqDecision exn.
Proof. solve_decision. Defined.

Inductive result (A : Type) : Type :=
| Ok (a : A)
| Raise (e : exn).
Arguments Ok {A} a.
Arguments Raise {A} e.

#[export] Instance result_ret : MRet result := λ A a, Ok a.
#[export] Instance result_bind : MBind result := λ A B k r,
  match r with
  | Ok a => k a
  | Raise e => Raise e
  end.

(** ** Blobs *)

(** A record is an opaque mapping from field names to values. *)
Definition Record : Type := list (string * string).

(** One entry of [Blob.failed_events]:
    [(absolute_position, original_record, error_code)]. *)
Definition FailedEvent : Type := (Z * Record * Z)%type.

(** [blob.reports]: the sink's acknowledgment payload, opaque here. *)
Definition Reports : Type := list string.

Record Blob : Type := mkBlob {
  events : list Record;
  location : string;
  position : Z;
  num_rows : Z;
  failed_events : list FailedEvent;
  reports : Reports
}.

(** Modelled from the spec: the constructor of [utils/blob.py]'s [Blob]
    (the class is not part of this tree).  Constructing a Blob requires
    [events] and [location]; [position] defaults to 0 and [num_rows] to
    [len(events)]; [failed_events] starts empty. *)
Definition Blob_init (events : list Record) (location : string)
    (position : option Z) (num_rows : option Z) : Blob :=
  {| events := events;
     location := location;
     position := default 0 position;
     num_rows := default (Z.of_nat (length events)) num_rows;
     failed_events := [];
     reports := [] |}.

(** What a blob generator yields: a Blob object or [None]. *)
Definition Item : Type := option Blob.

(** Python truthiness of a yielded item ([if blb:]).  [None] is falsy; the
    truthiness of a Blob object is fixed by the Blob class, which is not in
    this tree, and is taken as the parameter [blob_bool]. *)
Definition truthy (blob_bool : Blob → bool) (blb : Item) : bool :=
  match blb with
  | None => false
  | Some b => blob_bool b
  end.

(** ** Checkpoint rows *)

Record ProcessedRange : Type := mkRange {
  range_location : string;
  start_position : Z;
  end_position : Z
}.

Record FailedEventRecord : Type := mkFailed {
  failed_location : string;
  absolute_position : Z;
  record_payload : Record;
  error_code : Z
}.

Inductive Row : Type :=
| RangeRow (r : ProcessedRange)
| FailedRow (r : FailedEventRecord).

(** ** Collaborators *)

(** The calls an operator makes on its collaborators, in program order. *)
Inductive Effect : Type :=
| MonitorEventsBlobsGenerator          (* monitor.events_blobs_generator() *)
| GenerateProcessedBlobsRanges         (* monitor.generate_processed_blobs_ranges() *)
| InputEventsBlobsGenerator (processed : list ProcessedRange)
                                       (* input_hook.events_blobs_generator(...) *)
| SendEvents (blb : Blob)              (* output_hook.send_events(blb) *)
| StoreBlob (dag_name location : string) (position num_rows : Z)
                                       (* monitor.store_blob(...) *)
| StoreEvents (dag_name location : string) (l : list FailedEvent).
                                       (* monitor.store_events(...) *)

(** An input hook: its location accessor and the finite sequence its
    blob generator yields for a given exclusion argument. *)
Record InputHook : Type := mkInputHook {
  get_location : string;
  events_blobs_generator : list ProcessedRange → list Item
}.

(** An output hook.  The sink behind it may answer differently on every
    call, so [send_events] threads a sink state. *)
Record OutputHook : Type := mkOutputHook {
  SinkState : Type;
  sink_init : SinkState;
  send_events : SinkState → Blob → Blob * SinkState
}.

(** A monitoring hook instance, as far as the operators read from it: the
    sequence its failed-event replay generator yields and the processed
    ranges it reports. *)
Record MonitoringHook : Type := mkMonitoringHook {
  mon_events_blobs_generator : list Item;
  mon_generate_processed_blobs_ranges : list ProcessedRange
}.

(** The environment an operator runs in: the truthiness of Blob objects and
    the constructor [monitoring.MonitoringHook(bq_conn_id, enable_monitoring,
    dag_name, monitoring_dataset, monitoring_table, location)], which may
    raise. *)
Record Env : Type := mkEnv {
  blob_bool : Blob → bool;
  MonitoringHook_init :
    string → bool → string → string → string → string → result MonitoringHook
}.

(** Modelled from the spec: the rows [MonitoringHook.store_blob] and
    [MonitoringHook.store_events] write ([hooks/monitoring_hook.py] is not
    part of this tree).  [record_outcome] writes one
    [ProcessedRange(location, blob.position, blob.position + blob.num_rows)]
    and, for each entry of [blob.failed_events], one [FailedEventRecord]
    (the timestamp column is left out). *)
Definition rows_written (e : Effect) : list Row :=
  match e with
  | StoreBlob _ loc pos n => [RangeRow (mkRange loc pos (pos + n))]
  | StoreEvents _ loc l =>
      (λ '(p, ev, code), FailedRow (mkFailed loc p ev code)) <$> l
  | _ => []
  end.

(** ** [BaseDataConnectorOperator] (data_connector_operator_v2.py) *)

(** The attributes the concrete operators' [__init__] assign. *)
Record Operator : Type := mkOperator {
  dag_name : string;
  is_retry : bool;
  return_report : bool;
  enable_monitoring : bool;
  monitoring_dataset : string;
  monitoring_table : string;
  monitoring_bq_conn_id : string;
  input_hook : InputHook;
  output_hook : OutputHook
}.

(** The locals of [execute]'s loop together with the trace so far. *)
Record LoopState (S : Type) : Type := mkLoop {
  loop_reports : list Reports;     (* the local [reports] *)
  loop_sink : S;
  loop_trace : list Effect
}.
Arguments mkLoop {S}.
Arguments loop_reports {S}.
Arguments loop_sink {S}.
Arguments loop_trace {S}.

(** One iteration of [for blb in blob_generator:] (lines 30-42). *)
Definition execute_step (env : Env) (self : Operator)
    (st : LoopState (SinkState (output_hook self))) (blb : Item)
    : LoopState (SinkState (output_hook self)) :=
  match blb with
  | Some b =>
      if blob_bool env b then
        let '(b', sink') := send_events (output_hook self) (loop_sink st) b in
        let reports' := loop_reports st ++ [reports b'] in
        let trace' := loop_trace st ++ [SendEvents b] in
        if enable_monitoring self then
          mkLoop reports' sink'
            (trace' ++ [StoreBlob (dag_name self) (location b')
                          (position b') (num_rows b');
                        StoreEvents (dag_name self) (location b')
                          (failed_events b')])
        else mkLoop reports' sink' trace'
      else st
  | None => st
  end.

Fixpoint execute_loop (env : Env) (self : Operator)
    (blob_generator : list Item)
    (st : LoopState (SinkState (output_hook self)))
    : LoopState (SinkState (output_hook self)) :=
  match blob_generator with
  | [] => st
  | blb :: rest => execute_loop env self rest (execute_step env self st blb)
  end.

(** Lines 22-27: the blob source of the run, with the calls made to get it. *)
Definition select_blob_generator (self : Operator) (monitor : MonitoringHook)
    : list Item * list Effect :=
  if is_retry self then
    (mon_events_blobs_generator monitor, [MonitorEventsBlobsGenerator])
  else
    let processed_blobs_generator :=
      mon_generate_processed_blobs_ranges monitor in
    (events_blobs_generator (input_hook self) processed_blobs_generator,
     [GenerateProcessedBlobsRanges;
      InputEventsBlobsGenerator processed_blobs_generator]).

(** What a run leaves behind: the value [execute] returns ([None] when the
    method falls off its end), the trace of collaborator calls, and the
    local [reports] as it stood when the loop ended. *)
Record Outcome : Type := mkOutcome {
  returned : option (list Reports);
  trace : list Effect;
  collected : list Reports
}.

Definition execute (env : Env) (self : Operator) : result Outcome :=
  monitor ← MonitoringHook_init env
              (monitoring_bq_conn_id self) (enable_monitoring self)
              (dag_name self) (monitoring_dataset self)
              (monitoring_table self) (get_location (input_hook self));
  let '(blob_generator, calls) := select_blob_generator self monitor in
  let st := execute_loop env self blob_generator
              (mkLoop [] (sink_init (output_hook self)) calls) in
  Ok (mkOutcome
        (if return_report self then Some (loop_reports st) else None)
        (loop_trace st)
        (loop_reports st)).

(** ** The task-group operators (data_connector_taskgroup.py) *)

(** Values stored in an instance dictionary. *)
Inductive PyAttr : Type :=
| ABool (b : bool)
| AStr (s : string)
| AInputHook (h : InputHook)
| AOutputHook (h : OutputHook)
| AMonitor (m : MonitoringHook).

(** [self.name]: a lookup in the instance dictionary, [AttributeError] when
    the name was never assigned. *)
Definition getattr (self : gmap string PyAttr) (name : string)
    : result PyAttr :=
  match self !! name with
  | Some v => Ok v
  | None => Raise (AttributeError name)
  end.

Definition attr_truthy (v : PyAttr) : bool :=
  match v with
  | ABool b => b
  | AStr s => negb (String.eqb s "")
  | _ => true
  end.

(** Calling a monitoring-hook method on an attribute value. *)
Definition as_monitor (meth : string) (v : PyAttr) : result MonitoringHook :=
  match v with
  | AMonitor m => Ok m
  | _ => Raise (AttributeError meth)
  end.

Definition as_input_hook (meth : string) (v : PyAttr) : result InputHook :=
  match v with
  | AInputHook h => Ok h
  | _ => Raise (AttributeError meth)
  end.

(** [FetchDataTask.__init__] (lines 47-54).  [base] is the instance
    dictionary left by [BaseOperator.__init__] and [hook]
    the outcome of [hook_factory.get_input_hook(input_hook, **kwargs)]. *)
Definition FetchDataTask_init (base : result (gmap string PyAttr))
    (hook : result InputHook) (is_retry : bool)
    : result (gmap string PyAttr) :=
  self ← base;
  h ← hook;
  let self := <["input_hook" := AInputHook h]> self in
  let self := <["is_retry" := ABool is_retry]> self in
  Ok self.

(** The loop of [FetchDataTask.execute] (lines 64-67). *)
Fixpoint fetch_loop (blob_bool : Blob → bool) (blob_generator : list Item)
    (blobs : list Item) : list Item :=
  match blob_generator with
  | [] => blobs
  | blb :: rest =>
      fetch_loop blob_bool rest
        (if truthy blob_bool blb then blobs ++ [blb] else blobs)
  end.

(** [FetchDataTask.execute] (lines 56-69): the returned [blobs] and the
    collaborator calls made. *)
Definition FetchDataTask_execute (env : Env) (self : gmap string PyAttr)
    : result (list Item * list Effect) :=
  flag ← getattr self "is_retry";
  '(blob_generator, calls) ←
    (if attr_truthy flag then
       m ← getattr self "monitor";
       monitor ← as_monitor "events_blobs_generator" m;
       Ok (mon_events_blobs_generator monitor, [MonitorEventsBlobsGenerator])
     else
       m ← getattr self "monitor";
       monitor ← as_monitor "generate_processed_blobs_ranges" m;
       let processed_blobs_generator :=
         mon_generate_processed_blobs_ranges monitor in
       h ← getattr self "input_hook";
       input ← as_input_hook "events_blobs_generator" h;
       Ok (events_blobs_generator input processed_blobs_generator,
           [GenerateProcessedBlobsRanges;
            InputEventsBlobsGenerator processed_blobs_generator]));
  Ok (fetch_loop (blob_bool env) blob_generator [], calls).

(** [SendEventsTask.execute] (lines 80-90); [blobs] is the value pulled
    from the [fetch_data] XCom. *)
Fixpoint SendEventsTask_loop (blob_bool : Blob → bool) (hook : OutputHook)
    (blobs : list Item) (st : LoopState (SinkState hook))
    : LoopState (SinkState hook) :=
  match blobs with
  | [] => st
  | blb :: rest =>
      SendEventsTask_loop blob_bool hook rest
        match blb with
        | Some b =>
            if blob_bool b then
              let '(b', sink') := send_events hook (loop_sink st) b in
              mkLoop (loop_reports st ++ [reports b']) sink'
                     (loop_trace st ++ [SendEvents b])
            else st
        | None => st
        end
  end.

Definition SendEventsTask_execute (env : Env) (hook : OutputHook)
    (blobs : list Item) : list Reports * list Effect :=
  let st := SendEventsTask_loop (blob_bool env) hook blobs
              (mkLoop [] (sink_init hook) []) in
  (loop_reports st, loop_trace st).

(** A constructed [MonitorTask]. *)
Record MonitorTask : Type := mkMonitorTask {
  mt_dag_name : string;
  mt_enable_monitoring : bool;
  mt_monitor : MonitoringHook
}.


(** [MonitorTask.execute] (lines 124-137): the store calls made for the
    blobs pulled from the [fetch_data] XCom. *)
Fixpoint MonitorTask_loop (blob_bool : Blob → bool) (dag_name : string)
    (blobs : list Item) (trace : list Effect) : list Effect :=
  match blobs with
  | [] => trace
  | blb :: rest =>
      MonitorTask_loop blob_bool dag_name rest
        match blb with
        | Some b =>
            if blob_bool b then
              trace ++ [StoreBlob dag_name (location b) (position b)
                          (num_rows b);
                        StoreEvents dag_name (location b) (failed_events b)]
            else trace
        | None => trace
        end
  end.

Definition MonitorTask_execute (env : Env) (self : MonitorTask)
    (blobs : list Item) : list Effect :=
  if mt_enable_monitoring self then
    MonitorTask_loop (blob_bool env) (mt_dag_name self) blobs []
  else [].

(** ** Python values and the builtin types [str], [int], [bool] *)

Inductive PyVal : Type :=
| VNone
| VBool (b : bool)
| VInt (z : Z)
| VStr (s : string).

#[export] Instance PyVal_eq_dec : EqDecision PyVal.
Proof. solve_decision. Defined.

(** Python's [==] on these values: a [bool] compares as the integer 0 or 1. *)
Definition py_eq (a b : PyVal) : bool :=
  match a, b with
  | VNone, VNone => true
  | VStr s, VStr t => String.eqb s t
  | VInt x, VInt y => Z.eqb x y
  | VBool x, VBool y => Bool.eqb x y
  | VBool x, VInt y | VInt y, VBool x => Z.eqb (if x then 1 else 0) y
  | _, _ => false
  end.

Definition is_digit (c : ascii) : bool :=
  let n := Z.of_N (Ascii.N_of_ascii c) in Z.leb 48 n && Z.leb n 57.

(** The ASCII whitespace [int()] skips around a number: tab, line feed,
    vertical tab, form feed, carriage return and space. *)
Definition is_space (c : ascii) : bool :=
  let n := Z.of_N (Ascii.N_of_ascii c) in
  (Z.leb 9 n && Z.leb n 13) || Z.eqb n 32.

Fixpoint lstrip (s : string) : string :=
  match s with
  | String c r => if is_space c then lstrip r else s
  | EmptyString => s
  end.

Definition strip (s : string) : string :=
  String.rev (lstrip (String.rev (lstrip s))).

(** Decimal digits, single underscores allowed between two digits. *)
Fixpoint parse_digits (s : string) (after_digit : bool) (acc : Z)
    : option Z :=
  match s with
  | EmptyString => if after_digit then Some acc else None
  | String c r =>
      if is_digit c then
        parse_digits r true (10 * acc + (Z.of_N (Ascii.N_of_ascii c) - 48))
      else if Ascii.eqb c "_"%char && after_digit then parse_digits r false acc
      else None
  end.

(** The most decimal digits CPython converts between [str] and [int]
    ([sys.int_info.default_max_str_digits]); beyond it the conversion
    raises [ValueError]. *)
Definition max_str_digits : Z := 4300.

Fixpoint count_digits (s : string) : Z :=
  match s with
  | EmptyString => 0
  | String c r => (if is_digit c then 1 else 0) + count_digits r
  end.

(** [int(s)] for an ASCII string [s], base 10; [None] stands for
    [ValueError]. *)
Definition int_of_str (s : string) : option Z :=
  if Z.ltb max_str_digits (count_digits s) then None
  else
    match strip s with
    | String "-"%char r => Z.opp <$> parse_digits r false 0
    | String "+"%char r => parse_digits r false 0
    | r => parse_digits r false 0
    end.

Definition int_of (v : PyVal) : result Z :=
  match v with
  | VInt z => Ok z
  | VBool b => Ok (if b then 1 else 0)
  | VStr s => match int_of_str s with
              | Some z => Ok z
              | None => Raise ValueError
              end
  | VNone => Raise TypeError
  end.


Definition str_of (v : PyVal) : string :=
  match v with
  | VNone => "None"
  | VBool b => if b then "True" else "False"
  | VInt z => DecimalString.NilZero.string_of_int (Z.to_int z)
  | VStr s => s
  end.

(** What [get_variable_value] uses of its [expected_type] argument:
    [isinstance(v, expected_type)] and the call [expected_type(v)]. *)
Record PyType : Type := mkPyType {
  isinstance_of : PyVal → bool;
  call : PyVal → result PyVal
}.

(** [str(v)]; an [int] of more than [max_str_digits] digits raises
    [ValueError]. *)
Definition py_str : PyType :=
  {| isinstance_of v := match v with VStr _ => true | _ => false end;
     call v :=
       match v with
       | VInt z =>
           if Z.leb (10 ^ max_str_digits) (Z.abs z) then Raise ValueError
           else Ok (VStr (str_of v))
       | _ => Ok (VStr (str_of v))
       end |}.

Definition py_int : PyType :=
  {| isinstance_of v := match v with VInt _ | VBool _ => true | _ => false end;
     call v := z ← int_of v; Ok (VInt z) |}.


(** [Variable.get(key, default_var)] on the table of Airflow variables. *)
Definition Variable_get (vars : gmap string PyVal) (key : string)
    (default_var : PyVal) : PyVal :=
  default default_var (vars !! key).

(** ** dags/base_dag.py *)

Module base_dag.

(** Module constants. *)
Definition _DAG_RETRIES : PyVal := VInt 0.
Definition _DAG_RETRY_DELAY_MINUTES : PyVal := VInt 3.
Definition _DAG_SCHEDULE : PyVal := VStr "@once".
Definition _ENABLE_RETURN_REPORT : PyVal := VBool false.
Definition _DAG_ENABLE_MONITORING : PyVal := VBool true.
Definition _DEFAULT_MONITORING_DATASET_ID : PyVal :=
  VStr "tcrm_monitoring_dataset".
Definition _DEFAULT_MONITORING_TABLE_ID : PyVal :=
  VStr "tcrm_monitoring_table".
Definition _DEFAULT_DAG_ENABLE_MONITORING_CLEANUP : PyVal := VBool false.
Definition _DEFAULT_MONITORING_DATA_DAYS_TO_LIVE : PyVal := VInt 50.
Definition _MONITORING_BQ_CONN_ID : PyVal := VStr "bigquery_default".
Definition _DAG_IS_RETRY : PyVal := VBool true.
Definition _DAG_IS_RUN : PyVal := VBool true.

(** What a task of the workflow graph is there for. *)
Inductive TaskRole : Type :=
| Delivery (is_retry : bool)   (* made by create_task(main_dag, is_retry) *)
| Cleanup                      (* MonitoringCleanupOperator *)
| ErrorReport (error : exn).   (* ErrorReportOperator *)

Record Task : Type := mkTask {
  task_id : string;
  role : TaskRole
}.

#[export] Instance TaskRole_eq_dec : EqDecision TaskRole.
Proof. solve_decision. Defined.
#[export] Instance Task_eq_dec : EqDecision Task.
Proof. solve_decision. Defined.

(** An Airflow DAG: its tasks in creation order and its dependency
    edges [(upstream, downstream)]. *)
Record DAG : Type := mkDAG {
  dag_id : string;
  retries : Z;
  retry_delay_minutes : Z;
  schedule_interval : PyVal;
  tasks : list Task;
  edges : list (Task * Task)
}.

(** Passing [dag=main_dag] to an operator constructor attaches the task. *)
Definition add_task (d : DAG) (t : Task) : DAG :=
  mkDAG (dag_id d) (retries d) (retry_delay_minutes d)
        (schedule_interval d) (tasks d ++ [t]) (edges d).

(** [down.set_upstream(up)], also written [up >> down]. *)
Definition set_upstream (d : DAG) (down up : Task) : DAG :=
  mkDAG (dag_id d) (retries d) (retry_delay_minutes d)
        (schedule_interval d) (tasks d) (edges d ++ [(up, down)]).

(** The attributes [BaseDag.__init__] assigns, with the subclass's
    [create_task]: the task id of the operator it builds, or the
    exception it raises. *)
Record BaseDag : Type := mkBaseDag {
  dag_name : string;
  dag_retries : Z;
  dag_retry_delay : Z;
  dag_schedule : PyVal;
  dag_is_retry : bool;
  dag_is_run : bool;
  dag_enable_run_report : bool;
  dag_enable_monitoring : bool;
  dag_enable_monitoring_cleanup : bool;
  days_to_live : Z;
  monitoring_dataset : PyVal;
  monitoring_table : PyVal;
  monitoring_bq_conn_id : PyVal;
  create_task : bool → result string
}.

(** [bool(int(v))]. *)
Definition bool_int (v : PyVal) : result bool :=
  z ← int_of v; Ok (negb (Z.eqb z 0)).

(** [BaseDag.__init__] (lines 124-167). *)
Definition BaseDag_init (vars : gmap string PyVal) (dag_name : string)
    (create_task : bool → result string) : result BaseDag :=
  let get suffix default := Variable_get vars (dag_name +:+ suffix) default in
  dag_retries ← int_of (get "_retries" _DAG_RETRIES);
  dag_retry_delay ← int_of (get "_retry_delay" _DAG_RETRY_DELAY_MINUTES);
  let dag_schedule := get "_schedule" _DAG_SCHEDULE in
  dag_is_retry ← bool_int (get "_is_retry" _DAG_IS_RETRY);
  dag_is_run ← bool_int (get "_is_run" _DAG_IS_RUN);
  dag_enable_run_report ←
    bool_int (get "_enable_run_report" _ENABLE_RETURN_REPORT);
  dag_enable_monitoring ←
    bool_int (get "_enable_monitoring" _DAG_ENABLE_MONITORING);
  dag_enable_monitoring_cleanup ←
    bool_int (get "_enable_monitoring_cleanup"
                  _DEFAULT_DAG_ENABLE_MONITORING_CLEANUP);
  days_to_live ←
    int_of (get "_days_to_live" _DEFAULT_MONITORING_DATA_DAYS_TO_LIVE);
  Ok (mkBaseDag dag_name dag_retries dag_retry_delay dag_schedule
        dag_is_retry dag_is_run dag_enable_run_report dag_enable_monitoring
        dag_enable_monitoring_cleanup days_to_live
        (get "_monitoring_dataset" _DEFAULT_MONITORING_DATASET_ID)
        (get "_monitoring_table" _DEFAULT_MONITORING_TABLE_ID)
        (get "_monitoring_bq_conn_id" _MONITORING_BQ_CONN_ID)
        create_task).

(** [get_task_id] (lines 209-222). *)
Definition get_task_id (task_name : string) (is_retry : bool) : string :=
  if is_retry then task_name +:+ "_retry_task" else task_name +:+ "_task".

(** [_initialize_dag] (lines 224-238); the start date is left out. *)
Definition _initialize_dag (self : BaseDag) : DAG :=
  mkDAG (dag_name self) (dag_retries self) (dag_retry_delay self)
        (dag_schedule self) [] [].

(** [create_error_report_task] (lines 73-94). *)
Definition create_error_report_task (error_report_dag : DAG) (error : exn)
    : DAG :=
  add_task error_report_dag (mkTask "configuration_error" (ErrorReport error)).

(** [_try_create_task] (lines 240-260): any exception of [create_task]
    becomes a [DAGError]. *)
Definition _try_create_task (self : BaseDag) (main_dag : DAG)
    (is_retry : bool) : result (Task * DAG) :=
  match create_task self is_retry with
  | Ok tid =>
      let t := mkTask tid (Delivery is_retry) in Ok (t, add_task main_dag t)
  | Raise _ =>
      Raise (DAGError ("Error creating task in dag " +:+ dag_name self))
  end.

(** [_create_cleanup_task] (lines 262-277).  [cleanup_init] is the outcome
    of the [MonitoringCleanupOperator] constructor for the given
    arguments. *)
Definition _create_cleanup_task
    (cleanup_init : PyVal → PyVal → PyVal → Z → result unit)
    (self : BaseDag) (main_dag : DAG) : result (Task * DAG) :=
  _ ← cleanup_init (monitoring_dataset self) (monitoring_table self)
        (monitoring_bq_conn_id self) (days_to_live self);
  let t := mkTask "cleanup" Cleanup in Ok (t, add_task main_dag t).

(** The body of the [try] in [create_dag] (lines 190-202). *)
Definition create_dag_body
    (cleanup_init : PyVal → PyVal → PyVal → Z → result unit)
    (self : BaseDag) (main_dag : DAG) : result DAG :=
  '(retry_task, main_dag) ←
    (if dag_is_retry self then
       '(t, d) ← _try_create_task self main_dag true; Ok (Some t, d)
     else Ok (None, main_dag));
  if dag_is_run self then
    '(run_task, main_dag) ← _try_create_task self main_dag false;
    main_dag ←
      (if dag_is_retry self then
         match retry_task with
         | Some t => Ok (set_upstream main_dag run_task t)
         | None => Raise (OtherError "AirflowException")
         end
       else Ok main_dag);
    if dag_enable_monitoring_cleanup self then
      '(cleanup_task, main_dag) ←
        _create_cleanup_task cleanup_init self main_dag;
      if dag_is_retry self then
        match retry_task with
        | Some t => Ok (set_upstream main_dag t cleanup_task)
        | None => Raise (OtherError "AirflowException")
        end
      else Ok (set_upstream main_dag run_task cleanup_task)
    else Ok main_dag
  else Ok main_dag.

(** [create_dag] (lines 181-207). *)
Definition create_dag
    (cleanup_init : PyVal → PyVal → PyVal → Z → result unit)
    (self : BaseDag) : result DAG :=
  let main_dag := _initialize_dag self in
  match create_dag_body cleanup_init self main_dag with
  | Ok main_dag => Ok main_dag
  | Raise (DAGError msg) =>
      let main_dag := _initialize_dag self in
      Ok (create_error_report_task main_dag (DAGError msg))
  | Raise e => Raise e
  end.

(** [get_variable_value] (lines 278-309). *)
Definition get_variable_value (vars : gmap string PyVal)
    (prefix variable_name : string) (expected_type : PyType)
    (fallback_value var_not_found_flag : PyVal) : result PyVal :=
  _ ← (match fallback_value with
       | VNone => Ok ()
       | _ => if negb (isinstance_of expected_type fallback_value)
              then Raise TypeError else Ok ()
       end);
  let val := Variable_get vars (prefix +:+ "_" +:+ variable_name)
               var_not_found_flag in
  let val := if py_eq val var_not_found_flag
             then Variable_get vars variable_name fallback_value
             else val in
  match call expected_type val with
  | Ok v => Ok v
  | Raise ValueError => Ok fallback_value
  | Raise e => Raise e
  end.

(** The layered lookup as the specification words it: the value under
    ["{prefix}_{variable_name}"] if it exists, else the value under
    ["{variable_name}"], else the fallback. *)
Definition layered_lookup (vars : gmap string PyVal)
    (prefix variable_name : string) (fallback_value : PyVal) : PyVal :=
  match vars !! (prefix +:+ "_" +:+ variable_name) with
  | Some v => v
  | None =>
      match vars !! variable_name with
      | Some v => v
      | None => fallback_value
      end
  end.

(** The conversion as the specification words it: the value converted
    with [expected_type], the fallback when that conversion raises
    [ValueError]. *)
Definition convert_or_fallback (expected_type : PyType)
    (val fallback_value : PyVal) : result PyVal :=
  match call expected_type val with
  | Ok v => Ok v
  | Raise ValueError => Ok fallback_value
  | Raise e => Raise e
  end.

(** Delivery tasks of a DAG, in creation order. *)
Definition is_delivery (t : Task) : bool :=
  match role t with Delivery _ => true | _ => false end.

Definition delivery_tasks (d : DAG) : list Task :=
  filter (λ t, is_delivery t = true) (tasks d).

(** [up] runs before [down]: a path of dependency edges from [up] to
    [down]. *)
Definition runs_before (d : DAG) : relation Task :=
  tc (λ up down, (up, down) ∈ edges d).

End base_dag.

(** ** The sink sender of the Google Ads hooks *)

Module ads_hook_v2.

(** The payload of one upload call: [(index, event)] pairs. *)
Definition Payload : Type := list (nat * Record).

(** How the sink's underlying upload call ends. *)
Inductive UploadResult : Type :=
| TransportError (error_num : Z)
    (* the call raises errors.DataOutConnectorError carrying error_num *)
| RecordFailures (failures : list (nat * Z)) (ack : Reports).
    (* the call returns: (index, error code) of every failed record *)

(** One upload call as the sink saw it: the customer id and the payload it
    was given, and how it ended. *)
Record Call : Type := mkCall {
  call_customer : string;
  call_payload : Payload;
  call_result : UploadResult
}.

(** What the sender needs of the sink: the customer id an event carries
    (its [ads_hook_v2.CUSTOMER_ID] field) and the answer of the upload call
    to a customer's payload, given the calls made before it. *)
Record Sink : Type := mkSink {
  customer_id : Record → string;
  upload : list Call → string → Payload → UploadResult
}.

(** Adding one event to the payload of its customer, customers kept in
    the order they first appear (a Python [dict] of lists). *)
Fixpoint group_insert (cid : string) (item : nat * Record)
    (groups : list (string * Payload)) : list (string * Payload) :=
  match groups with
  | [] => [(cid, [item])]
  | (c, payload) :: rest =>
      if String.eqb c cid then (c, payload ++ [item]) :: rest
      else (c, payload) :: group_insert cid item rest
  end.

(** The events of a Blob, each with its index, grouped by customer id. *)
Definition group_by_customer (customer_id : Record → string)
    (events : list Record) : list (string * Payload) :=
  foldl (λ groups item, group_insert (customer_id item.2) item groups)
        [] (imap (λ i e, (i, e)) events).

(** [Blob.append_failed_events]: failure tracking is additive only. *)
Definition append_failed_events (blb : Blob) (l : list FailedEvent)
    (r : Reports) : Blob :=
  mkBlob (events blb) (location blb) (position blb) (num_rows blb)
         (failed_events blb ++ l) r.

Definition all_failed (blb : Blob) (error_num : Z) : list FailedEvent :=
  imap (λ i e, (position blb + Z.of_nat i, e, error_num)) (events blb).

Definition reported_failed (blb : Blob) (failures : list (nat * Z))
    : list FailedEvent :=
  omap (λ '(i, error_num),
          e ← events blb !! i;
          Some (position blb + Z.of_nat i, e, error_num)) failures.

(** How the uploads of one Blob ended: a transport-wide failure with its
    error number, or the per-record failures the sink reported. *)
Inductive SendOutcome : Type :=
| Systemic (error_num : Z)
| PerRecord (failures : list (nat * Z)).

(** Uploading the payloads customer by customer.  The first call that
    fails transport-wide settles the whole Blob, and nothing more is
    uploaded. *)
Fixpoint upload_groups (sink : Sink) (groups : list (string * Payload))
    (calls : list Call) (failures : list (nat * Z)) (acks : Reports)
    : SendOutcome * Reports * list Call :=
  match groups with
  | [] => (PerRecord failures, acks, calls)
  | (cid, payload) :: rest =>
      let res := upload sink calls cid payload in
      let calls := calls ++ [mkCall cid payload res] in
      match res with
      | TransportError error_num => (Systemic error_num, acks, calls)
      | RecordFailures l ack =>
          upload_groups sink rest calls (failures ++ l) (acks ++ ack)
      end
  end.

(** Modelled from the spec: [send_events] of
    [hooks/ads_oc_hook_v2.py] and [hooks/ads_cm_hook_v2.py] (the hooks are
    not part of this tree, only their tests are).  The sender attempts
    delivery of every record of [blob.events] and returns the same Blob.
    As the hooks' tests show, the events are uploaded customer by customer,
    each call carrying the [(index, event)] pairs of one customer id.  If
    an upload call fails transport-wide, every record of the Blob is marked
    failed with the single error code of that failure; if the calls succeed
    and return per-record results, only the records reported as failed are
    marked.  A marked record is the triple
    [(blob.position + index, record, error code)]; [reports] receives the
    acknowledgments of the calls.  The sink state is the log of upload
    calls. *)
Definition send_events (sink : Sink) (calls : list Call) (blb : Blob)
    : Blob * list Call :=
  let '(outcome, acks, calls) :=
    upload_groups sink
      (group_by_customer (customer_id sink) (events blb)) calls [] [] in
  (append_failed_events blb
     match outcome with
     | Systemic error_num => all_failed blb error_num
     | PerRecord failures => reported_failed blb failures
     end
     (reports blb ++ acks),
   calls).

Definition as_output_hook (sink : Sink) : OutputHook :=
  mkOutputHook (list Call) [] (send_events sink).

(** The upload calls a send added to the log. *)
Definition new_calls (calls calls' : list Call) : list Call :=
  drop (length calls) calls'.

(** The entries a send added to [failed_events]. *)
Definition new_failed (blb blb' : Blob) : list FailedEvent :=
  drop (length (failed_events blb)) (failed_events blb').

(** The per-record failures an upload call returned, none if it raised. *)
Definition call_failures (call : Call) : list (nat * Z) :=
  match call_result call with
  | RecordFailures failures _ => failures
  | TransportError _ => []
  end.

(** The upload call returned a per-record result. *)
Definition returned (call : Call) : Prop :=
  ∃ failures ack, call_result call = RecordFailures failures ack.

(** One of the calls reported the record at index [i] failed with [code]. *)
Definition reported (calls : list Call) (i : nat) (code : Z) : Prop :=
  ∃ call failures ack,
    call ∈ calls ∧ call_result call = RecordFailures failures ack ∧
    (i, code) ∈ failures.

(** One of the calls failed transport-wide with [code]. *)
Definition transport_failed (calls : list Call) (code : Z) : Prop :=
  ∃ call, call ∈ calls ∧ call_result call = TransportError code.

(** The record [e] at index [i] is present in the entries added to
    [failed_events]: as the triple of its absolute position, itself and an
    error code. *)
Definition marked_failed (blb : Blob) (added : list FailedEvent) (i : nat)
    (e : Record) : Prop :=
  ∃ code, (position blb + Z.of_nat i, e, code) ∈ added.

(** The record at index [i] is absent from the entries added to
    [failed_events]: none of them has its absolute position. *)
Definition unmarked (blb : Blob) (added : list FailedEvent) (i : nat)
    : Prop :=
  ∀ fe, fe ∈ added → fe.1.1 ≠ position blb + Z.of_nat i.

(** The sink took the record [e] at index [i]: it was in the payload of a
    call that returned, and no call reported it failed. *)
Definition taken (calls : list Call) (i : nat) (e : Record) : Prop :=
  (∃ call, call ∈ calls ∧ (i, e) ∈ call_payload call ∧ returned call) ∧
  ∀ code, ¬ reported calls i code.

End ads_hook_v2.

(** ** Reading a run off its trace *)

(** The Blobs handed to [send_events], in order. *)
Definition sends (tr : list Effect) : list Blob :=
  omap (λ e, match e with SendEvents b => Some b | _ => None end) tr.

(** The calls that set up the blob source. *)
Definition is_source_call (e : Effect) : bool :=
  match e with
  | MonitorEventsBlobsGenerator | GenerateProcessedBlobsRanges
  | InputEventsBlobsGenerator _ => true
  | _ => false
  end.

Definition source_calls (tr : list Effect) : list Effect :=
  filter (λ e, is_source_call e = true) tr.

(** The Blob objects among the yielded items that are truthy. *)
Definition truthy_blobs (blob_bool : Blob → bool) (items : list Item)
    : list Blob :=
  omap (λ blb, b ← blb; if blob_bool b then Some b else None) items.

(** Sending a list of Blobs one after the other: each Blob with the Blob
    the sink returned for it. *)
Fixpoint sent_pairs (hook : OutputHook) (sink : SinkState hook)
    (blobs : list Blob) : list (Blob * Blob) :=
  match blobs with
  | [] => []
  | b :: rest =>
      let '(b', sink') := send_events hook sink b in
      (b, b') :: sent_pairs hook sink' rest
  end.

(** The store calls that record the outcome of one sent Blob. *)
Definition record_outcome (dag_name : string) (b' : Blob) : list Effect :=
  [StoreBlob dag_name (location b') (position b') (num_rows b');
   StoreEvents dag_name (location b') (failed_events b')].

(** The rows that recording the outcome of one sent Blob should write. *)
Definition outcome_rows (b' : Blob) : list Row :=
  RangeRow (mkRange (location b') (position b') (position b' + num_rows b'))
  :: ((λ fe : FailedEvent,
         FailedRow (mkFailed (location b') fe.1.1 fe.1.2 fe.2))
      <$> failed_events b').

(** The effects of one loop iteration of [execute] on a truthy Blob. *)
Definition iteration_effects (self : Operator) (p : Blob * Blob)
    : list Effect :=
  SendEvents p.1 ::
  (if enable_monitoring self then record_outcome (dag_name self) p.2 else []).

(** The blobs a run sends, paired with what the sink returned. *)
Definition run_pairs (env : Env) (self : Operator) (monitor : MonitoringHook)
    : list (Blob * Blob) :=
  sent_pairs (output_hook self) (sink_init (output_hook self))
    (truthy_blobs (blob_bool env) (select_blob_generator self monitor).1).

(** The monitoring hook a run constructs. *)
Definition run_monitor (env : Env) (self : Operator) : result MonitoringHook :=
  MonitoringHook_init env
    (monitoring_bq_conn_id self) (enable_monitoring self)
    (dag_name self) (monitoring_dataset self)
    (monitoring_table self) (get_location (input_hook self)).

(** ** Concrete runs used to exercise the model *)

Module fixtures.

Definition ev_A : Record := [("gclid", "A")].
Definition ev_B : Record := [("gclid", "B")].

(** [Blob(events=[A, B], location="L", position=100)]. *)
Definition blob_L : Blob := Blob_init [ev_A; ev_B] "L" (Some 100) None.

(** A Blob read back from the failed-event rows: B at position 101. *)
Definition blob_retry : Blob := Blob_init [ev_B] "L" (Some 101) None.

(** The customer id of an event: its ["customer_id"] field, empty when the
    event has none. *)
Fixpoint customer_of (e : Record) : string :=
  match e with
  | [] => ""
  | (k, v) :: rest => if String.eqb k "customer_id" then v else customer_of rest
  end.

(** A sink that takes A and reports B (index 1) failed with code 5. *)
Definition upload_partial : ads_hook_v2.Sink :=
  ads_hook_v2.mkSink customer_of
    (λ calls cid payload, ads_hook_v2.RecordFailures [(1%nat, 5)] ["ack"]).

(** A sink whose upload raises [DataOutConnectorError] (error number 10). *)
Definition upload_down : ads_hook_v2.Sink :=
  ads_hook_v2.mkSink customer_of
    (λ calls cid payload, ads_hook_v2.TransportError 10).

(** A sink that takes every record. *)
Definition upload_ok : ads_hook_v2.Sink :=
  ads_hook_v2.mkSink customer_of
    (λ calls cid payload, ads_hook_v2.RecordFailures [] []).

(** A sink that takes the records of customer 12345 and fails
    transport-wide on any other customer. *)
Definition upload_one_customer : ads_hook_v2.Sink :=
  ads_hook_v2.mkSink customer_of
    (λ calls cid payload,
       if String.eqb cid "12345" then ads_hook_v2.RecordFailures [] ["ack"]
       else ads_hook_v2.TransportError 10).

(** The events of the hook tests: two conversions of customers 12345 and
    12346. *)
Definition ev_1 : Record := [("customer_id", "12345"); ("gclid", "123abc")].
Definition ev_2 : Record := [("customer_id", "12346"); ("gclid", "123abc")].

Definition bq_hook : InputHook :=
  mkInputHook "L" (λ processed, [None; Some blob_L]).

Definition monitor : MonitoringHook :=
  mkMonitoringHook [Some blob_retry] [mkRange "L" 0 100].

(** Blob objects are truthy; the monitoring hook is constructed without
    error. *)
Definition env : Env :=
  mkEnv (λ _, true) (λ _ _ _ _ _ _, Ok monitor).

(** An environment whose monitoring hook refuses its parameters. *)
Definition env_bad_monitoring : Env :=
  mkEnv (λ _, true) (λ _ _ _ _ _ _, Raise MonitoringValueError).

Definition operator (is_retry return_report enable_monitoring : bool)
    : Operator :=
  mkOperator "tcrm_bq_to_ads_oc_v2" is_retry return_report enable_monitoring
    "tcrm_monitoring_dataset" "tcrm_monitoring_table" "bigquery_default"
    bq_hook (ads_hook_v2.as_output_hook upload_partial).

(** Instance dictionary left by [BaseOperator.__init__]. *)
Definition base_attrs : gmap string PyAttr :=
  {[ "task_id" := AStr "fetch_data" ]}.

(** A table of Airflow variables. *)
Definition vars : gmap string PyVal :=
  {[ "bq_dataset_id" := VStr "test_dataset";
     "tcrm_bq_to_ads_oc_v2_bq_dataset_id" := VStr "prefix_test_dataset";
     "bq_table_id" := VStr "test_table";
     "ads_cm_membership_lifespan" := VStr "8";
     "api_version" := VStr "thirteen" ]}.

(** [BigQueryToAdsOCDagV2.create_task] (bq_to_ads_oc_dag_v2.py, lines
    48-80), given the outcome of the operator constructor. *)
Definition create_task (operator_init : bool → result unit)
    (is_retry : bool) : result string :=
  _ ← operator_init is_retry;
  Ok (base_dag.get_task_id "bq_to_ads_oc" is_retry).

(** A DAG object with the given switches. *)
Definition dag (is_retry is_run cleanup : bool)
    (operator_init : bool → result unit) : base_dag.BaseDag :=
  base_dag.mkBaseDag "tcrm_bq_to_ads_oc_v2" 0 3 (VStr "@once")
    is_retry is_run false true cleanup 50
    (VStr "tcrm_monitoring_dataset") (VStr "tcrm_monitoring_table")
    (VStr "bigquery_default") (create_task operator_init).

Definition cleanup_ok (ds tb conn : PyVal) (days : Z) : result unit := Ok ().

Definition retry_task : base_dag.Task :=
  base_dag.mkTask "bq_to_ads_oc_retry_task" (base_dag.Delivery true).
Definition run_task : base_dag.Task :=
  base_dag.mkTask "bq_to_ads_oc_task" (base_dag.Delivery false).
Definition cleanup_task : base_dag.Task :=
  base_dag.mkTask "cleanup" base_dag.Cleanup.

End fixtures.

(** ** Counting the calls of a trace *)







(** ** Reading a workflow graph *)


(** The suffixes of the variables [BaseDag.__init__] reads, each appended
    to the DAG's name. *)
Definition BaseDag_suffixes : list string :=
  ["_retries"; "_retry_delay"; "_schedule"; "_is_retry"; "_is_run";
   "_enable_run_report"; "_enable_monitoring"; "_enable_monitoring_cleanup";
   "_days_to_live"; "_monitoring_dataset"; "_monitoring_table";
   "_monitoring_bq_conn_id"].


(** * Properties *)

(** ** The loop of [execute] *)

Lemma execute_step_falsy env self st blb :
  truthy (blob_bool env) blb = false → execute_step env self st blb = st.
Proof.
  destruct blb as [b|]; simpl; [|done].
  intros ->. done.
Qed.

Lemma execute_step_truthy env self st b :
  blob_bool env b = true →
  let r := send_events (output_hook self) (loop_sink st) b in
  execute_step env self st (Some b) =
    mkLoop (loop_reports st ++ [reports r.1]) r.2
           (loop_trace st ++ iteration_effects self (b, r.1)).
Proof.
  intros Hb. unfold execute_step, iteration_effects. rewrite Hb.
  destruct (send_events _ _ b) as [b' sink'] eqn:Hs. simpl.
  destruct (enable_monitoring self); simpl.
  - by rewrite <- app_assoc.
  - done.
Qed.

Lemma truthy_blobs_cons blob_bool blb items :
  truthy_blobs blob_bool (blb :: items) =
    (if truthy blob_bool blb then option_list blb else [])
    ++ truthy_blobs blob_bool items.
Proof.
  unfold truthy_blobs. simpl.
  destruct blb as [b|]; simpl; [|done].
  by destruct (blob_bool b).
Qed.

(** The loop adds, for the truthy Blobs in order, their iteration effects
    to the trace and their reports to the local list. *)
Lemma execute_loop_spec env self items st :
  let pairs := sent_pairs (output_hook self) (loop_sink st)
                 (truthy_blobs (blob_bool env) items) in
  loop_trace (execute_loop env self items st) =
    loop_trace st ++ pairs ≫= iteration_effects self ∧
  loop_reports (execute_loop env self items st) =
    loop_reports st ++ (reports ∘ snd <$> pairs).
Proof.
  revert st. induction items as [|blb items IH]; intros st.
  - simpl. by rewrite !app_nil_r.
  - cbn [execute_loop]. rewrite truthy_blobs_cons.
    destruct (truthy (blob_bool env) blb) eqn:Hb.
    + destruct blb as [b|]; [simpl in Hb|done].
      rewrite (execute_step_truthy _ _ _ _ Hb).
      match goal with |- context [execute_loop _ _ _ ?s] =>
        specialize (IH s) end.
      simpl in *.
      destruct (send_events _ (loop_sink st) b) as [b' sink'] eqn:Hs.
      simpl in *. destruct IH as [-> ->].
      by rewrite <- !app_assoc.
    + rewrite (execute_step_falsy _ _ _ _ Hb). apply IH.
Qed.

Lemma sent_pairs_fst hook sink blobs : (sent_pairs hook sink blobs).*1 = blobs.
Proof.
  revert sink. induction blobs as [|b blobs IH]; intros sink; simpl; [done|].
  destruct (send_events hook sink b) as [b' sink']. simpl. by rewrite IH.
Qed.

Lemma sent_pairs_length hook sink blobs :
  length (sent_pairs hook sink blobs) = length blobs.
Proof. by rewrite <- (sent_pairs_fst hook sink blobs) at 2; rewrite length_fmap. Qed.

Lemma sends_app tr1 tr2 : sends (tr1 ++ tr2) = sends tr1 ++ sends tr2.
Proof. apply omap_app. Qed.

Lemma sends_iterations self pairs :
  sends (pairs ≫= iteration_effects self) = pairs.*1.
Proof.
  induction pairs as [|p pairs IH]; [done|].
  cbn [mbind list_bind fmap list_fmap]. rewrite sends_app, IH.
  unfold iteration_effects, record_outcome.
  by destruct (enable_monitoring self).
Qed.

Lemma source_calls_app tr1 tr2 :
  source_calls (tr1 ++ tr2) = source_calls tr1 ++ source_calls tr2.
Proof. apply filter_app. Qed.

Lemma source_calls_iterations self pairs :
  source_calls (pairs ≫= iteration_effects self) = [].
Proof.
  induction pairs as [|p pairs IH]; [done|].
  cbn [mbind list_bind]. rewrite source_calls_app, IH.
  unfold iteration_effects, record_outcome.
  by destruct (enable_monitoring self).
Qed.

Lemma source_calls_select self monitor :
  source_calls (select_blob_generator self monitor).2 =
    (select_blob_generator self monitor).2.
Proof. unfold select_blob_generator. by destruct (is_retry self). Qed.

(** A run whose monitoring hook is constructed returns, and its outcome is
    the source-selection calls followed by the iterations over the truthy
    Blobs of the selected source. *)
Lemma execute_spec env self monitor :
  run_monitor env self = Ok monitor →
  let pairs := run_pairs env self monitor in
  execute env self =
    Ok (mkOutcome
          (if return_report self then Some (reports ∘ snd <$> pairs) else None)
          ((select_blob_generator self monitor).2
             ++ pairs ≫= iteration_effects self)
          (reports ∘ snd <$> pairs)).
Proof.
  unfold run_monitor, run_pairs, execute. intros ->. simpl.
  destruct (select_blob_generator self monitor) as [gen calls] eqn:Hsel.
  simpl.
  pose proof (execute_loop_spec env self gen
                (mkLoop [] (sink_init (output_hook self)) calls)) as [Ht Hr].
  simpl in Ht, Hr. by rewrite Ht, Hr.
Qed.

(** A run whose monitoring hook cannot be constructed raises before the
    blob source is selected: there is no outcome and no trace. *)
Lemma execute_monitor_raises env self e :
  run_monitor env self = Raise e → execute env self = Raise e.
Proof. unfold run_monitor, execute. by intros ->. Qed.

(** ** C1: the blob source of a run *)

(** C1.  In every run of [BaseDataConnectorOperator.execute] the Blobs
    handed to the sink are, in order, the (truthy) Blobs yielded by the
    monitoring hook's failed-event replay generator when [is_retry] is set,
    and otherwise those yielded by the input hook's generator called with
    the monitoring hook's processed ranges as exclusion argument; in retry
    mode only the replay generator is called, in normal mode only the
    processed-ranges query and the input generator. *)
Theorem execute_blob_source env self monitor :
  run_monitor env self = Ok monitor →
  ∃ out, execute env self = Ok out ∧
    sends (trace out) =
      truthy_blobs (blob_bool env)
        (if is_retry self then mon_events_blobs_generator monitor
         else events_blobs_generator (input_hook self)
                (mon_generate_processed_blobs_ranges monitor)) ∧
    source_calls (trace out) =
      (if is_retry self then [MonitorEventsBlobsGenerator]
       else [GenerateProcessedBlobsRanges;
             InputEventsBlobsGenerator
               (mon_generate_processed_blobs_ranges monitor)]).
Proof.
  intros Hmon. eexists. split; [by apply execute_spec|]. simpl.
  rewrite sends_app, sends_iterations, source_calls_app,
    source_calls_iterations, app_nil_r, source_calls_select.
  unfold run_pairs. rewrite sent_pairs_fst.
  unfold select_blob_generator. by destruct (is_retry self).
Qed.

Lemma execute_blob_source_witness :
  ∃ out, execute fixtures.env (fixtures.operator true false true) = Ok out ∧
    sends (trace out) = [fixtures.blob_retry] ∧
    source_calls (trace out) = [MonitorEventsBlobsGenerator].
Proof.
  exact (execute_blob_source fixtures.env (fixtures.operator true false true)
           fixtures.monitor eq_refl).
Defined.

(** ** C2: recording the outcome *)

Lemma rows_written_record_outcome dag_name b' :
  record_outcome dag_name b' ≫= rows_written = outcome_rows b'.
Proof.
  unfold record_outcome, outcome_rows. simpl. rewrite app_nil_r. f_equal.
  apply list_fmap_ext. by intros _ [[p ev] code] _.
Qed.

Lemma rows_written_iterations self pairs :
  (pairs ≫= iteration_effects self) ≫= rows_written =
    if enable_monitoring self then pairs.*2 ≫= outcome_rows else [].
Proof.
  induction pairs as [|p pairs IH].
  - by destruct (enable_monitoring self).
  - cbn [mbind list_bind fmap list_fmap]. rewrite bind_app.
    fold (pairs ≫= iteration_effects self). 
    fold ((pairs ≫= iteration_effects self) ≫= rows_written). rewrite IH.
    unfold iteration_effects.
    destruct (enable_monitoring self); [|done].
    change (SendEvents p.1 :: record_outcome (dag_name self) p.2)
      with ([SendEvents p.1] ++ record_outcome (dag_name self) p.2).
    rewrite bind_app. fold (record_outcome (dag_name self) p.2 ≫= rows_written).
    by rewrite rows_written_record_outcome.
Qed.

Lemma rows_written_select self monitor :
  (select_blob_generator self monitor).2 ≫= rows_written = [].
Proof. unfold select_blob_generator. by destruct (is_retry self). Qed.

Lemma MonitorTask_loop_spec blob_bool dag_name blobs tr :
  MonitorTask_loop blob_bool dag_name blobs tr =
    tr ++ truthy_blobs blob_bool blobs ≫= record_outcome dag_name.
Proof.
  revert tr. induction blobs as [|blb blobs IH]; intros tr.
  - simpl. by rewrite app_nil_r.
  - cbn [MonitorTask_loop]. rewrite IH, truthy_blobs_cons.
    destruct blb as [b|]; simpl; [|done].
    destruct (blob_bool b); simpl; [|done].
    by rewrite <- app_assoc.
Qed.

(** C2.  In a run of [execute] every truthy Blob is sent; with monitoring
    enabled each send is followed by exactly one [store_blob] call and one
    [store_events] call on the returned Blob, which write one
    processed-range row [(location, position, position + num_rows)] and one
    failed-event row per entry of [failed_events]; with monitoring disabled
    no store call is made and the same Blobs are sent; falsy items are
    neither sent nor recorded.  [MonitorTask.execute] makes the same two
    store calls for every truthy Blob it is handed, and none when
    monitoring is disabled. *)
Theorem execute_records_outcome env self monitor :
  run_monitor env self = Ok monitor →
  (∃ out, execute env self = Ok out ∧
     trace out =
       (select_blob_generator self monitor).2
         ++ run_pairs env self monitor ≫=
              (λ p, SendEvents p.1 ::
                    if enable_monitoring self
                    then [StoreBlob (dag_name self) (location p.2)
                            (position p.2) (num_rows p.2);
                          StoreEvents (dag_name self) (location p.2)
                            (failed_events p.2)]
                    else []) ∧
     (run_pairs env self monitor).*1 =
       truthy_blobs (blob_bool env) (select_blob_generator self monitor).1 ∧
     sends (trace out) =
       truthy_blobs (blob_bool env) (select_blob_generator self monitor).1 ∧
     trace out ≫= rows_written =
       if enable_monitoring self
       then (run_pairs env self monitor).*2 ≫= outcome_rows
       else []) ∧
  (∀ task blobs,
     MonitorTask_execute env task blobs =
       if mt_enable_monitoring task
       then truthy_blobs (blob_bool env) blobs ≫=
              (λ b, [StoreBlob (mt_dag_name task) (location b) (position b)
                       (num_rows b);
                     StoreEvents (mt_dag_name task) (location b)
                       (failed_events b)])
       else []).
Proof.
  intros Hmon. split.
  - eexists. split; [by apply execute_spec|]. simpl.
    repeat split.
    + unfold run_pairs. apply sent_pairs_fst.
    + rewrite sends_app, sends_iterations.
      unfold select_blob_generator at 1. unfold run_pairs.
      rewrite sent_pairs_fst. by destruct (is_retry self).
    + rewrite bind_app.
      fold ((select_blob_generator self monitor).2 ≫= rows_written).
      rewrite rows_written_select. simpl.
      apply rows_written_iterations.
  - intros task blobs. unfold MonitorTask_execute.
    destruct (mt_enable_monitoring task); [|done].
    by rewrite MonitorTask_loop_spec.
Qed.

Lemma execute_records_outcome_witness :
  ∃ out, execute fixtures.env (fixtures.operator false false true) = Ok out ∧
    sends (trace out) = [fixtures.blob_L] ∧
    trace out ≫= rows_written =
      [RangeRow (mkRange "L" 100 102);
       FailedRow (mkFailed "L" 101 fixtures.ev_B 5)].
Proof.
  destruct (execute_records_outcome fixtures.env
              (fixtures.operator false false true) fixtures.monitor eq_refl)
    as [(out & Hex & _ & _ & Hsends & Hrows) _].
  exists out. split; [exact Hex|]. split.
  - rewrite Hsends. reflexivity.
  - rewrite Hrows. reflexivity.
Defined.

(** The scenario of the specification, run through the model: the source
    yields [Blob(events=[A,B], location="L", position=100)], the sink
    reports B failed with code 5. *)
Example execute_concrete_scenario :
  execute fixtures.env (fixtures.operator false true true) =
    Ok (mkOutcome
          (Some [["ack"]])
          [GenerateProcessedBlobsRanges;
           InputEventsBlobsGenerator [mkRange "L" 0 100];
           SendEvents fixtures.blob_L;
           StoreBlob "tcrm_bq_to_ads_oc_v2" "L" 100 2;
           StoreEvents "tcrm_bq_to_ads_oc_v2" "L" [(101, fixtures.ev_B, 5)]]
          [["ack"]]).
Proof. reflexivity. Qed.

(** ** C5: the value a run returns *)

(** C5, amended.  The local list [reports] receives the sink report of
    every sent Blob, in sending order, in every run, whatever
    [return_report] is; the run returns that list if [return_report] is
    set, and returns no value otherwise. *)
Theorem execute_returns_reports env self monitor :
  run_monitor env self = Ok monitor →
  ∃ out, execute env self = Ok out ∧
    collected out = (reports ∘ snd <$> run_pairs env self monitor) ∧
    (run_pairs env self monitor).*1 = sends (trace out) ∧
    returned out = (if return_report self then Some (collected out) else None) ∧
    (returned out = Some (collected out) ↔ return_report self = true).
Proof.
  intros Hmon. eexists. split; [by apply execute_spec|]. simpl.
  split; [done|]. split.
  - rewrite sends_app, sends_iterations.
    unfold select_blob_generator. by destruct (is_retry self).
  - by destruct (return_report self).
Qed.

Lemma execute_returns_reports_witness :
  ∃ out, execute fixtures.env (fixtures.operator false true true) = Ok out ∧
    returned out = Some [["ack"]].
Proof.
  destruct (execute_returns_reports fixtures.env
              (fixtures.operator false true true) fixtures.monitor eq_refl)
    as (out & Hex & Hcol & _ & Hret & _).
  exists out. split; [exact Hex|]. rewrite Hret, Hcol. reflexivity.
Defined.

(** C5 as stated fails: with [return_report] unset the run returns no
    value, yet the report of the sent Blob has been collected. *)
Lemma execute_collects_without_return_report :
  return_report (fixtures.operator false false true) = false ∧
  ∃ out, execute fixtures.env (fixtures.operator false false true) = Ok out ∧
    returned out = None ∧ collected out = [["ack"]] ∧ collected out ≠ [].
Proof.
  split; [reflexivity|]. eexists. split; [reflexivity|]. simpl.
  split; [reflexivity|]. split; [reflexivity|]. discriminate.
Qed.

(** ** C7 and C10: the workflow graph built by [create_dag] *)

(** Case analysis on membership in an explicitly given list. *)
Ltac elem_of_cases H :=
  repeat (apply elem_of_cons in H as [H|H]; [try done|]);
  try (by apply elem_of_nil in H).

Section workflow_graph.
Import base_dag.

(** The graph [create_dag] builds when the run task is wanted and every
    task it asks for is created. *)
Lemma create_dag_run_spec cleanup_init self id_retry id_run :
  dag_is_run self = true →
  (dag_is_retry self = true → create_task self true = Ok id_retry) →
  create_task self false = Ok id_run →
  (dag_enable_monitoring_cleanup self = true →
   cleanup_init (monitoring_dataset self) (monitoring_table self)
     (monitoring_bq_conn_id self) (days_to_live self) = Ok ()) →
  let retry := mkTask id_retry (Delivery true) in
  let run := mkTask id_run (Delivery false) in
  let cleanup := mkTask "cleanup" Cleanup in
  create_dag cleanup_init self =
    Ok (mkDAG (dag_name self) (dag_retries self) (dag_retry_delay self)
          (dag_schedule self)
          ((if dag_is_retry self then [retry] else []) ++ [run] ++
           (if dag_enable_monitoring_cleanup self then [cleanup] else []))
          ((if dag_is_retry self then [(retry, run)] else []) ++
           (if dag_enable_monitoring_cleanup self
            then [(cleanup, if dag_is_retry self then retry else run)]
            else []))).
Proof.
  intros Hrun Hretry Hcreate Hclean.
  unfold create_dag, create_dag_body, _try_create_task, _create_cleanup_task.
  rewrite Hrun.
  destruct (dag_is_retry self) eqn:Hr.
  - rewrite (Hretry eq_refl), Hcreate. simpl.
    destruct (dag_enable_monitoring_cleanup self) eqn:Hc; [|done].
    by rewrite (Hclean eq_refl).
  - rewrite Hcreate. simpl.
    destruct (dag_enable_monitoring_cleanup self) eqn:Hc; [|done].
    by rewrite (Hclean eq_refl).
Qed.

(** The graph [create_dag] returns when a delivery task it asks for cannot
    be created: a fresh DAG with the error-report task alone. *)
Lemma create_dag_error_spec cleanup_init self e :
  dag_is_run self = true →
  (dag_is_retry self = true ∧ create_task self true = Raise e) ∨
  create_task self false = Raise e →
  create_dag cleanup_init self =
    Ok (mkDAG (dag_name self) (dag_retries self) (dag_retry_delay self)
          (dag_schedule self)
          [mkTask "configuration_error"
             (ErrorReport
                (DAGError ("Error creating task in dag " +:+ dag_name self)))]
          []).
Proof.
  intros Hrun Hraise.
  unfold create_dag, create_dag_body, _try_create_task.
  rewrite Hrun.
  destruct Hraise as [[Hr Hraise]|Hraise].
  - by rewrite Hr, Hraise.
  - rewrite Hraise.
    destruct (dag_is_retry self); [|done].
    by destruct (create_task self true).
Qed.

(** C7, amended.  When [dag_is_retry] and [dag_is_run] are both enabled and
    both calls of [create_task] succeed (and the cleanup task, if enabled,
    is created), the DAG has exactly two delivery tasks, the one made with
    [is_retry=True] and the one made with [is_retry=False], and the run task
    is directly downstream of the retry task, with nothing downstream of
    the run task.  When one of the two [create_task] calls raises, the DAG
    returned holds the [configuration_error] task alone. *)
Theorem create_dag_retry_then_run cleanup_init self :
  dag_is_retry self = true →
  dag_is_run self = true →
  (∀ id_retry id_run,
     create_task self true = Ok id_retry →
     create_task self false = Ok id_run →
     (dag_enable_monitoring_cleanup self = true →
      cleanup_init (monitoring_dataset self) (monitoring_table self)
        (monitoring_bq_conn_id self) (days_to_live self) = Ok ()) →
     let retry := mkTask id_retry (Delivery true) in
     let run := mkTask id_run (Delivery false) in
     ∃ d, create_dag cleanup_init self = Ok d ∧
       delivery_tasks d = [retry; run] ∧
       (retry, run) ∈ edges d ∧
       runs_before d retry run ∧
       (∀ t, (run, t) ∉ edges d)) ∧
  (∀ e, create_task self true = Raise e ∨ create_task self false = Raise e →
     ∃ d, create_dag cleanup_init self = Ok d ∧
       tasks d =
         [mkTask "configuration_error"
            (ErrorReport
               (DAGError ("Error creating task in dag " +:+ dag_name self)))] ∧
       delivery_tasks d = [] ∧ edges d = []).
Proof.
  intros Hr Hrun. split.
  - intros id_retry id_run Hc1 Hc2 Hclean retry run.
    eexists. split.
    { apply (create_dag_run_spec _ _ id_retry id_run); auto. }
    rewrite Hr. simpl.
    split; [|split; [|split]].
    + unfold delivery_tasks. simpl.
      by destruct (dag_enable_monitoring_cleanup self).
    + apply list_elem_of_here.
    + apply tc_once. simpl. apply list_elem_of_here.
    + intros t Hin. simpl in Hin.
      destruct (dag_enable_monitoring_cleanup self); simpl in Hin;
        elem_of_cases Hin.
  - intros e Hraise. eexists. split.
    { apply (create_dag_error_spec _ _ e Hrun).
      destruct Hraise as [H|H]; [left|right]; done. }
    done.
Qed.

Lemma create_dag_retry_then_run_witness :
  ∃ d, create_dag fixtures.cleanup_ok
         (fixtures.dag true true false (λ _, Ok ())) = Ok d ∧
    delivery_tasks d = [fixtures.retry_task; fixtures.run_task] ∧
    (fixtures.retry_task, fixtures.run_task) ∈ edges d ∧
    runs_before d fixtures.retry_task fixtures.run_task ∧
    (∀ t, (fixtures.run_task, t) ∉ edges d).
Proof.
  apply (proj1 (create_dag_retry_then_run fixtures.cleanup_ok
                  (fixtures.dag true true false (λ _, Ok ()))
                  eq_refl eq_refl)
           "bq_to_ads_oc_retry_task" "bq_to_ads_oc_task");
    reflexivity.
Defined.

(** C7 as stated fails: with both switches enabled but [create_task]
    raising (here the operator constructor rejects its parameters), the DAG
    that [create_dag] returns holds the single [configuration_error] task
    and no delivery task. *)
Lemma create_dag_task_creation_fails :
  let self := fixtures.dag true true false
                (λ _, Raise (OtherError "DataOutConnectorValueError")) in
  dag_is_retry self = true ∧ dag_is_run self = true ∧
  ∃ d, create_dag fixtures.cleanup_ok self = Ok d ∧
    tasks d =
      [mkTask "configuration_error"
         (ErrorReport
            (DAGError "Error creating task in dag tcrm_bq_to_ads_oc_v2"))] ∧
    delivery_tasks d = [] ∧ edges d = [].
Proof.
  split; [reflexivity|]. split; [reflexivity|].
  eexists. split; [reflexivity|]. by vm_compute.
Qed.

(** C10, amended.  When [dag_enable_monitoring_cleanup] and [dag_is_run]
    are both enabled and every task is created, the cleanup task is in the
    DAG, directly upstream of the retry task (of the run task when
    [dag_is_retry] is disabled); every delivery task is reached from the
    cleanup task along dependency edges, and no task is upstream of the
    cleanup task. *)
Theorem create_dag_cleanup_first cleanup_init self id_retry id_run :
  dag_enable_monitoring_cleanup self = true →
  dag_is_run self = true →
  (dag_is_retry self = true → create_task self true = Ok id_retry) →
  create_task self false = Ok id_run →
  cleanup_init (monitoring_dataset self) (monitoring_table self)
    (monitoring_bq_conn_id self) (days_to_live self) = Ok () →
  let retry := mkTask id_retry (Delivery true) in
  let run := mkTask id_run (Delivery false) in
  let cleanup := mkTask "cleanup" Cleanup in
  ∃ d, create_dag cleanup_init self = Ok d ∧
    cleanup ∈ tasks d ∧
    (cleanup, if dag_is_retry self then retry else run) ∈ edges d ∧
    (∀ t, t ∈ delivery_tasks d → runs_before d cleanup t) ∧
    (∀ t, (t, cleanup) ∉ edges d).
Proof.
  intros Hc Hrun Hc1 Hc2 Hclean retry run cleanup.
  eexists. split.
  { apply (create_dag_run_spec _ _ id_retry id_run); auto. }
  rewrite Hc. unfold runs_before, delivery_tasks.
  destruct (dag_is_retry self); simpl.
  - repeat split.
    + do 2 apply list_elem_of_further. apply list_elem_of_here.
    + apply list_elem_of_further, list_elem_of_here.
    + intros t Ht. apply list_elem_of_filter in Ht as [Hp Ht].
      apply elem_of_cons in Ht as [->|Ht].
      { apply tc_once, list_elem_of_further, list_elem_of_here. }
      apply elem_of_cons in Ht as [->|Ht].
      { eapply tc_l; [apply list_elem_of_further, list_elem_of_here|].
        apply tc_once, list_elem_of_here. }
      apply elem_of_cons in Ht as [->|Ht]; [discriminate Hp|].
      by apply elem_of_nil in Ht.
    + intros t Hin. elem_of_cases Hin.
  - repeat split.
    + apply list_elem_of_further, list_elem_of_here.
    + apply list_elem_of_here.
    + intros t Ht. apply list_elem_of_filter in Ht as [Hp Ht].
      apply elem_of_cons in Ht as [->|Ht].
      { apply tc_once, list_elem_of_here. }
      apply elem_of_cons in Ht as [->|Ht]; [discriminate Hp|].
      by apply elem_of_nil in Ht.
    + intros t Hin. elem_of_cases Hin.
Qed.
Lemma create_dag_cleanup_first_witness :
  ∃ d, create_dag fixtures.cleanup_ok
         (fixtures.dag true true true (λ _, Ok ())) = Ok d ∧
    fixtures.cleanup_task ∈ tasks d ∧
    (fixtures.cleanup_task, fixtures.retry_task) ∈ edges d ∧
    (∀ t, t ∈ delivery_tasks d → runs_before d fixtures.cleanup_task t) ∧
    (∀ t, (t, fixtures.cleanup_task) ∉ edges d).
Proof.
  apply (create_dag_cleanup_first fixtures.cleanup_ok
           (fixtures.dag true true true (λ _, Ok ()))
           "bq_to_ads_oc_retry_task" "bq_to_ads_oc_task");
    reflexivity.
Defined.

(** C10 as stated fails: with the cleanup and the retry task enabled but
    [dag_is_run] disabled, [create_dag] builds the retry task alone; no
    cleanup task is created, so none is upstream of the retry task. *)
Lemma create_dag_retry_only_has_no_cleanup :
  let self := fixtures.dag true false true (λ _, Ok ()) in
  dag_enable_monitoring_cleanup self = true ∧ dag_is_retry self = true ∧
  ∃ d, create_dag fixtures.cleanup_ok self = Ok d ∧
    tasks d = [fixtures.retry_task] ∧ edges d = [] ∧
    fixtures.cleanup_task ∉ tasks d.
Proof.
  split; [reflexivity|]. split; [reflexivity|].
  eexists. split; [reflexivity|]. split; [reflexivity|].
  split; [reflexivity|]. simpl.
  intros Hin. apply list_elem_of_singleton in Hin. discriminate Hin.
Qed.

(** The switches as [BaseDag.__init__] reads them: the defaults when no
    variable is set, and a retry-only DAG with cleanup enabled when the
    variables ask for it. *)
Example BaseDag_init_defaults ct :
  BaseDag_init ∅ "tcrm_bq_to_ads_oc_v2" ct =
    Ok (mkBaseDag "tcrm_bq_to_ads_oc_v2" 0 3 (VStr "@once")
          true true false true false 50
          (VStr "tcrm_monitoring_dataset") (VStr "tcrm_monitoring_table")
          (VStr "bigquery_default") ct).
Proof. by vm_compute. Qed.

Example BaseDag_init_retry_only :
  BaseDag_init
    {[ "tcrm_bq_to_ads_oc_v2_is_run" := VStr "0";
       "tcrm_bq_to_ads_oc_v2_enable_monitoring_cleanup" := VStr "1" ]}
    "tcrm_bq_to_ads_oc_v2" (fixtures.create_task (λ _, Ok ())) =
    Ok (fixtures.dag true false true (λ _, Ok ())).
Proof. by vm_compute. Qed.

End workflow_graph.

(** ** C8: layered configuration lookup *)

Section layered_configuration.
Import base_dag.

Lemma py_eq_refl v : py_eq v v = true.
Proof.
  destruct v as [|b|z|s]; simpl; [done| | |].
  - by destruct b.
  - apply Z.eqb_refl.
  - apply String.eqb_refl.
Qed.

(** C8, amended.  Provided no value stored under the prefixed name equals
    [var_not_found_flag], [get_variable_value] raises [TypeError] when
    [fallback_value] is not [None] and is not an instance of
    [expected_type] (a [None] fallback is never checked); otherwise it
    takes the value under ["{prefix}_{variable_name}"] if it exists, else
    the value under ["{variable_name}"], else [fallback_value], and returns
    it converted with [expected_type], or [fallback_value] if that
    conversion raises [ValueError]. *)
Theorem get_variable_value_layered vars prefix variable_name expected_type
    fallback_value var_not_found_flag :
  (∀ v, vars !! (prefix +:+ "_" +:+ variable_name) = Some v →
        py_eq v var_not_found_flag = false) →
  get_variable_value vars prefix variable_name expected_type fallback_value
      var_not_found_flag =
    if bool_decide (fallback_value ≠ VNone) &&
       negb (isinstance_of expected_type fallback_value)
    then Raise TypeError
    else convert_or_fallback expected_type
           (layered_lookup vars prefix variable_name fallback_value)
           fallback_value.
Proof.
  intros Hflag.
  assert ((let val := Variable_get vars (prefix +:+ "_" +:+ variable_name)
                        var_not_found_flag in
           if py_eq val var_not_found_flag
           then Variable_get vars variable_name fallback_value else val)
          = layered_lookup vars prefix variable_name fallback_value) as Hval.
  { unfold Variable_get, layered_lookup. simpl.
    destruct (vars !! (prefix +:+ "_" +:+ variable_name)) as [v|] eqn:Hp;
      simpl.
    - by rewrite (Hflag v eq_refl).
    - rewrite py_eq_refl. by destruct (vars !! variable_name). }
  unfold get_variable_value, convert_or_fallback.
  simpl in Hval. rewrite Hval.
  destruct fallback_value as [|b|z|s]; simpl; [done| | |];
    by destruct (isinstance_of expected_type _).
Qed.

Lemma get_variable_value_layered_witness :
  get_variable_value fixtures.vars "tcrm_bq_to_ads_oc_v2" "bq_dataset_id"
    py_str (VStr "") VNone = Ok (VStr "prefix_test_dataset").
Proof.
  rewrite (get_variable_value_layered fixtures.vars "tcrm_bq_to_ads_oc_v2"
             "bq_dataset_id" py_str (VStr "") VNone).
  - reflexivity.
  - intros v Hv. vm_compute in Hv. injection Hv as <-. reflexivity.
Defined.

(** C8 as stated fails: [None] is not an instance of [int], yet a [None]
    fallback raises no [TypeError]; the stored value is converted and
    returned. *)
Lemma get_variable_value_none_fallback :
  isinstance_of py_int VNone = false ∧
  get_variable_value fixtures.vars "tcrm_bq_to_ads_oc_v2"
    "ads_cm_membership_lifespan" py_int VNone VNone = Ok (VInt 8).
Proof. split; [reflexivity|]. by vm_compute. Qed.

(** The proviso of the amended statement is needed: a prefixed value equal
    to the flag passed as [var_not_found_flag] is taken for absent, and the
    unprefixed value is returned. *)
Example get_variable_value_flag_collision :
  fixtures.vars !! "tcrm_bq_to_ads_oc_v2_bq_dataset_id" =
    Some (VStr "prefix_test_dataset") ∧
  get_variable_value fixtures.vars "tcrm_bq_to_ads_oc_v2" "bq_dataset_id"
    py_str (VStr "") (VStr "prefix_test_dataset") = Ok (VStr "test_dataset").
Proof. by vm_compute. Qed.

(** The other branches on the same table: the unprefixed value when no
    prefixed one exists, the fallback when neither exists, the fallback
    when the conversion raises [ValueError], and the [TypeError] of a
    mismatched fallback. *)
Example get_variable_value_branches :
  get_variable_value fixtures.vars "tcrm_bq_to_ads_oc_v2" "bq_table_id"
    py_str (VStr "") VNone = Ok (VStr "test_table") ∧
  get_variable_value fixtures.vars "tcrm_bq_to_ads_oc_v2" "gcs_bucket_name"
    py_str (VStr "bucket") VNone = Ok (VStr "bucket") ∧
  get_variable_value fixtures.vars "tcrm_bq_to_ads_oc_v2" "api_version"
    py_int (VInt 13) VNone = Ok (VInt 13) ∧
  get_variable_value fixtures.vars "tcrm_bq_to_ads_oc_v2" "api_version"
    py_int (VStr "13") VNone = Raise TypeError.
Proof. by vm_compute. Qed.

End layered_configuration.

(** ** C9: the fetch step of the task group *)

(** C9.  An instance built by [FetchDataTask.__init__] has no [monitor]
    attribute unless [BaseOperator.__init__] left one, so [execute] raises
    [AttributeError] on [self.monitor] in retry mode and in normal mode,
    before any generator is called and without returning a list of
    blobs. *)
Theorem FetchDataTask_execute_raises env
    (base : gmap string PyAttr) hook is_retry self :
  base !! "monitor" = None →
  FetchDataTask_init (Ok base) hook is_retry = Ok self →
  FetchDataTask_execute env self = Raise (AttributeError "monitor").
Proof.
  intros Hbase Hinit. unfold FetchDataTask_init in Hinit. simpl in Hinit.
  destruct hook as [h|e]; simpl in Hinit; [|discriminate].
  injection Hinit as <-.
  unfold FetchDataTask_execute, getattr.
  rewrite lookup_insert_eq. simpl.
  rewrite !lookup_insert_ne, Hbase by done.
  by destruct is_retry.
Qed.

Lemma FetchDataTask_execute_raises_witness :
  FetchDataTask_execute fixtures.env
    (<["is_retry" := ABool true]>
       (<["input_hook" := AInputHook fixtures.bq_hook]> fixtures.base_attrs))
  = Raise (AttributeError "monitor") ∧
  FetchDataTask_execute fixtures.env
    (<["is_retry" := ABool false]>
       (<["input_hook" := AInputHook fixtures.bq_hook]> fixtures.base_attrs))
  = Raise (AttributeError "monitor").
Proof.
  split.
  - apply (FetchDataTask_execute_raises fixtures.env fixtures.base_attrs
             (Ok fixtures.bq_hook) true); [by vm_compute | reflexivity].
  - apply (FetchDataTask_execute_raises fixtures.env fixtures.base_attrs
             (Ok fixtures.bq_hook) false); [by vm_compute | reflexivity].
Defined.

(** With a [monitor] attribute in place the same method returns the truthy
    items of the selected source. *)
Example FetchDataTask_execute_with_monitor :
  FetchDataTask_execute fixtures.env
    (<["monitor" := AMonitor fixtures.monitor]>
       (<["is_retry" := ABool false]>
          (<["input_hook" := AInputHook fixtures.bq_hook]>
             fixtures.base_attrs)))
  = Ok ([Some fixtures.blob_L],
        [GenerateProcessedBlobsRanges;
         InputEventsBlobsGenerator [mkRange "L" 0 100]]).
Proof. by vm_compute. Qed.

(** ** C3 and C4: failure accounting of the sink sender *)

Section sink_sender.
Import ads_hook_v2.

(** Every event is in the payload of some customer, with its index. *)
Lemma group_insert_items cid item groups y :
  y ∈ group_insert cid item groups ≫= snd ↔ y = item ∨ y ∈ groups ≫= snd.
Proof.
  induction groups as [|[c payload] groups IH]; simpl.
  - rewrite list_elem_of_singleton, elem_of_nil. tauto.
  - destruct (String.eqb c cid); simpl.
    + rewrite !elem_of_app, list_elem_of_singleton. tauto.
    + rewrite !elem_of_app, IH. tauto.
Qed.

Lemma foldl_group_insert_items customer_id items groups y :
  y ∈ foldl (λ groups item, group_insert (customer_id item.2) item groups)
        groups items ≫= snd
  ↔ y ∈ groups ≫= snd ∨ y ∈ items.
Proof.
  revert groups. induction items as [|item items IH]; intros groups; simpl.
  - rewrite elem_of_nil. tauto.
  - rewrite IH, group_insert_items, elem_of_cons. tauto.
Qed.

Lemma group_by_customer_items customer_id events i e :
  (i, e) ∈ group_by_customer customer_id events ≫= snd ↔
  events !! i = Some e.
Proof.
  unfold group_by_customer. rewrite foldl_group_insert_items.
  rewrite elem_of_lookup_imap. simpl. rewrite elem_of_nil. split.
  - intros [[]|(j & x & Heq & Hj)]. by injection Heq as -> ->.
  - intros He. right. eauto.
Qed.

Lemma upload_groups_spec sink groups calls failures acks :
  ∃ made,
    (upload_groups sink groups calls failures acks).2 = calls ++ made ∧
    (λ call, (call_customer call, call_payload call)) <$> made
      `prefix_of` groups ∧
    match (upload_groups sink groups calls failures acks).1.1 with
    | Systemic code =>
        ∃ init call,
          made = init ++ [call] ∧ call_result call = TransportError code ∧
          Forall returned init
    | PerRecord l =>
        (λ call, (call_customer call, call_payload call)) <$> made = groups ∧
        Forall returned made ∧
        l = failures ++ made ≫= call_failures
    end.
Proof.
  revert calls failures acks.
  induction groups as [|[cid payload] groups IH]; intros calls failures acks.
  - exists []. simpl. by rewrite !app_nil_r.
  - cbn [upload_groups].
    destruct (upload sink calls cid payload) as [code|l ack] eqn:Hup.
    + exists [mkCall cid payload (TransportError code)]. simpl.
      split; [done|]. split; [apply prefix_cons, prefix_nil|].
      exists [], (mkCall cid payload (TransportError code)). by split.
    + destruct (IH (calls ++ [mkCall cid payload (RecordFailures l ack)])
                  (failures ++ l) (acks ++ ack)) as (made & Hcalls & Hpre & Hout).
      exists (mkCall cid payload (RecordFailures l ack) :: made).
      split; [by rewrite Hcalls, <- app_assoc|].
      split; [by apply prefix_cons|].
      assert (returned (mkCall cid payload (RecordFailures l ack))) as Hret
        by (by exists l, ack).
      destruct (upload_groups sink groups _ _ _).1.1 as [code|l'].
      * destruct Hout as (init & call & -> & Hcall & Hinit).
        exists (mkCall cid payload (RecordFailures l ack) :: init), call.
        split; [done|]. split; [done|]. by constructor.
      * destruct Hout as (Hkeys & Hall & ->).
        split; [cbn [fmap list_fmap]; simpl; by f_equal|]. split; [by constructor|].
        simpl. by rewrite <- app_assoc.
Qed.

(** What one send does, read off the loop over the customers. *)
Lemma send_events_spec sink calls blb :
  ∃ made outcome acks,
    send_events sink calls blb =
      (append_failed_events blb
         match outcome with
         | Systemic code => all_failed blb code
         | PerRecord l => reported_failed blb l
         end (reports blb ++ acks),
       calls ++ made) ∧
    (λ call, (call_customer call, call_payload call)) <$> made
      `prefix_of` group_by_customer (customer_id sink) (events blb) ∧
    match outcome with
    | Systemic code =>
        ∃ init call,
          made = init ++ [call] ∧ call_result call = TransportError code ∧
          Forall returned init
    | PerRecord l =>
        (λ call, (call_customer call, call_payload call)) <$> made =
          group_by_customer (customer_id sink) (events blb) ∧
        Forall returned made ∧
        l = made ≫= call_failures
    end.
Proof.
  unfold send_events.
  destruct (upload_groups_spec sink
              (group_by_customer (customer_id sink) (events blb)) calls [] [])
    as (made & Hcalls & Hpre & Hout).
  destruct (upload_groups sink _ calls [] []) as [[outcome acks] calls'].
  simpl in *. subst calls'. exists made, outcome, acks. done.
Qed.

Lemma new_calls_app calls made : new_calls calls (calls ++ made) = made.
Proof. unfold new_calls. by rewrite drop_app_length. Qed.

Lemma new_failed_append blb l r :
  new_failed blb (append_failed_events blb l r) = l.
Proof. unfold new_failed. simpl. by rewrite drop_app_length. Qed.

Lemma returned_not_failed call code :
  returned call → call_result call ≠ TransportError code.
Proof. intros (l & ack & ->). done. Qed.

(** C3.  When an upload call made for a Blob raises a transport-level
    error with code [c], [send_events] returns the same Blob with, added to
    [failed_events], the triple [(position + i, record i, c)] for every
    record of the Blob in order, all with that one code; the raising call
    is the last upload of the send, every call before it returned, and the
    calls made carry payloads of a prefix of the customers only: nothing is
    uploaded after the failure. *)
Theorem send_events_systemic_failure sink calls blb call c :
  let r := send_events sink calls blb in
  let made := new_calls calls r.2 in
  call ∈ made →
  call_result call = TransportError c →
  failed_events r.1 =
    failed_events blb ++
    imap (λ i e, (position blb + Z.of_nat i, e, c)) (events blb) ∧
  (∀ i e, events blb !! i = Some e →
          (position blb + Z.of_nat i, e, c) ∈ new_failed blb r.1) ∧
  length (new_failed blb r.1) = length (events blb) ∧
  (∀ fe, fe ∈ new_failed blb r.1 → fe.2 = c) ∧
  events r.1 = events blb ∧
  r.2 = calls ++ made ∧
  last made = Some call ∧
  (∀ k other, made !! k = Some other → (S k < length made)%nat →
              returned other) ∧
  (λ call, (call_customer call, call_payload call)) <$> made
    `prefix_of` group_by_customer (customer_id sink) (events blb).
Proof.
  intros r made. subst r made.
  destruct (send_events_spec sink calls blb)
    as (made & outcome & acks & -> & Hpre & Hout).
  cbn [fst snd]. rewrite new_calls_app, new_failed_append.
  intros Hin Hres.
  destruct outcome as [code|l].
  - destruct Hout as (init & lc & -> & Hlc & Hinit).
    assert (call = lc) as ->.
    { apply elem_of_app in Hin as [Hin|Hin].
      - rewrite Forall_forall in Hinit.
        by destruct (returned_not_failed _ c (Hinit _ Hin)).
      - by apply list_elem_of_singleton in Hin. }
    assert (code = c) as -> by congruence.
    simpl. split; [done|]. split.
    { intros i e He.
      apply (elem_of_lookup_imap_2
               (λ i e, (position blb + Z.of_nat i, e, c)) _ _ _ He). }
    split; [apply length_imap|]. split.
    { intros fe Hfe. unfold all_failed in Hfe.
      apply elem_of_lookup_imap in Hfe as (i & e & -> & _). done. }
    split; [done|]. split; [done|]. split; [apply last_snoc|].
    split; [|done].
    intros k other Hk Hlt. rewrite length_app in Hlt. simpl in Hlt.
    rewrite lookup_app_l in Hk by lia.
    rewrite Forall_forall in Hinit. apply Hinit.
    by apply list_elem_of_lookup_2 in Hk.
  - destruct Hout as (_ & Hall & _). rewrite Forall_forall in Hall.
    by destruct (returned_not_failed _ c (Hall _ Hin)).
Qed.

Lemma elem_of_reported_failed blb l p e code :
  (p, e, code) ∈ reported_failed blb l ↔
  ∃ i, (i, code) ∈ l ∧ events blb !! i = Some e ∧
       p = position blb + Z.of_nat i.
Proof.
  unfold reported_failed. rewrite list_elem_of_omap. split.
  - intros ([i c] & Hin & Hsome).
    destruct (events blb !! i) as [x|] eqn:Hi; simpl in Hsome; [|done].
    injection Hsome as <- <- <-. eauto.
  - intros (i & Hin & Hi & ->). exists (i, code). split; [done|].
    by rewrite Hi.
Qed.

Lemma elem_of_call_failures made i code :
  (i, code) ∈ made ≫= call_failures ↔ reported made i code.
Proof.
  rewrite list_elem_of_bind. unfold reported, call_failures. split.
  - intros (call & Hin & Hcall).
    destruct (call_result call) as [c|l ack] eqn:Hres; [by elem_of_cases Hin|].
    eauto 6.
  - intros (call & l & ack & Hcall & Hres & Hin). exists call.
    by rewrite Hres.
Qed.

(** C4.  After [send_events] every record of the Blob is in exactly one of
    two states: present in the entries added to [failed_events], as the
    triple of its absolute position, itself and an error code, or absent
    from them, and then the record was in the payload of an upload call
    that returned and no call reported it failed.  Every added entry is a
    record of the Blob with a code the sink gave for it, the Blob's events
    are untouched and failure tracking is additive.  When every upload call
    returned, the records present are exactly those the calls reported. *)
Theorem send_events_no_silent_loss sink calls blb :
  let r := send_events sink calls blb in
  let added := new_failed blb r.1 in
  let made := new_calls calls r.2 in
  (failed_events r.1 = failed_events blb ++ added ∧
   events r.1 = events blb ∧ position r.1 = position blb ∧
   r.2 = calls ++ made) ∧
  (∀ p e code, (p, e, code) ∈ added →
     ∃ i, p = position blb + Z.of_nat i ∧ events blb !! i = Some e ∧
          (reported made i code ∨ transport_failed made code)) ∧
  (∀ i e, events blb !! i = Some e →
     (marked_failed blb added i e ∧ ¬ unmarked blb added i) ∨
     (unmarked blb added i ∧ ¬ marked_failed blb added i e ∧
      taken made i e)) ∧
  ((∀ call, call ∈ made → returned call) →
   ∀ i e, events blb !! i = Some e →
     (marked_failed blb added i e ↔ ∃ code, reported made i code)).
Proof.
  intros r added made. subst r added made.
  destruct (send_events_spec sink calls blb)
    as (made & outcome & acks & -> & Hpre & Hout).
  cbn [fst snd]. rewrite new_calls_app, new_failed_append.
  split; [done|].
  destruct outcome as [c|l].
  - destruct Hout as (init & lc & -> & Hlc & Hinit).
    assert (transport_failed (init ++ [lc]) c) as Hfail.
    { exists lc. split; [|done]. apply elem_of_app. right.
      apply list_elem_of_here. }
    assert (∀ i e, events blb !! i = Some e →
                   (position blb + Z.of_nat i, e, c) ∈ all_failed blb c)
      as Hall.
    { intros i e He.
      apply (elem_of_lookup_imap_2
               (λ i e, (position blb + Z.of_nat i, e, c)) _ _ _ He). }
    split; [|split].
    + intros p e code Hin. unfold all_failed in Hin.
      apply elem_of_lookup_imap in Hin as (i & x & Heq & Hi).
      injection Heq as -> -> ->. eauto.
    + intros i e He. left. split; [by exists c; apply Hall|].
      intros Hun. by apply (Hun _ (Hall i e He)).
    + intros Hret. exfalso.
      assert (lc ∈ init ++ [lc]) as Hin
        by (apply elem_of_app; right; apply list_elem_of_here).
      by destruct (returned_not_failed _ c (Hret _ Hin)).
  - destruct Hout as (Hkeys & Hret & ->).
    assert (∀ i e, events blb !! i = Some e →
              marked_failed blb (reported_failed blb (made ≫= call_failures))
                i e ↔ ∃ code, reported made i code) as Hmarked.
    { intros i e He. unfold marked_failed. split.
      - intros (code & Hin). exists code.
        apply elem_of_reported_failed in Hin as (j & Hj & _ & Hp).
        assert (j = i) as -> by lia. by apply elem_of_call_failures.
      - intros (code & Hrep). exists code.
        apply elem_of_reported_failed. exists i.
        by rewrite elem_of_call_failures. }
    split; [|split].
    + intros p e code Hin.
      apply elem_of_reported_failed in Hin as (i & Hi & He & ->).
      exists i. rewrite <- elem_of_call_failures. auto.
    + intros i e He.
      destruct (decide (i ∈ (made ≫= call_failures).*1)) as [Hi|Hi].
      * left. apply list_elem_of_fmap in Hi as ([j code] & -> & Hin).
        simpl in *. assert (marked_failed blb
          (reported_failed blb (made ≫= call_failures)) j e) as Hm.
        { apply Hmarked; [done|]. exists code.
          by apply elem_of_call_failures. }
        split; [done|]. intros Hun. destruct Hm as (c & Hc).
        by apply (Hun _ Hc).
      * right.
        assert (∀ code, ¬ reported made i code) as Hnone.
        { intros code Hrep. apply Hi. apply list_elem_of_fmap.
          exists (i, code). by rewrite elem_of_call_failures. }
        split; [|split; [|split]].
        -- intros [[p x] code] Hin Hp. simpl in Hp. subst p.
           apply elem_of_reported_failed in Hin as (j & Hj & _ & Hp).
           assert (j = i) as -> by lia.
           apply (Hnone code). by apply elem_of_call_failures.
        -- intros Hm. apply Hmarked in Hm as (code & Hrep); [|done].
           by apply (Hnone code).
        -- apply (group_by_customer_items (customer_id sink)) in He.
           apply list_elem_of_bind in He as ([cid payload] & Hin & Hg).
           rewrite <- Hkeys in Hg.
           apply list_elem_of_fmap in Hg as (call & Heq & Hcall).
           injection Heq as -> ->. exists call.
           rewrite Forall_forall in Hret. auto.
        -- done.
    + intros _ i e He. by apply Hmarked.
Qed.

Lemma send_events_systemic_failure_witness :
  let r := send_events fixtures.upload_down [] fixtures.blob_L in
  failed_events r.1 = [(100, fixtures.ev_A, 10); (101, fixtures.ev_B, 10)] ∧
  r.2 = [mkCall "" [(0%nat, fixtures.ev_A); (1%nat, fixtures.ev_B)]
           (TransportError 10)].
Proof.
  destruct (send_events_systemic_failure fixtures.upload_down []
              fixtures.blob_L
              (mkCall "" [(0%nat, fixtures.ev_A); (1%nat, fixtures.ev_B)]
                 (TransportError 10)) 10)
    as (Hf & _ & _ & _ & _ & Hc & _).
  - apply list_elem_of_here.
  - reflexivity.
  - split; [rewrite Hf | rewrite Hc]; reflexivity.
Defined.

Lemma send_events_no_silent_loss_witness :
  let r := send_events fixtures.upload_partial [] fixtures.blob_L in
  failed_events r.1 = [(101, fixtures.ev_B, 5)] ∧
  (marked_failed fixtures.blob_L (new_failed fixtures.blob_L r.1) 1
     fixtures.ev_B ↔
   ∃ code, reported (new_calls [] r.2) 1 code).
Proof.
  destruct (send_events_no_silent_loss fixtures.upload_partial []
              fixtures.blob_L) as ((Hf & _) & _ & _ & Hall).
  split.
  - rewrite Hf. reflexivity.
  - apply Hall; [|reflexivity].
    intros call Hin. vm_compute in Hin.
    apply list_elem_of_singleton in Hin. subst call.
    eexists _, _. reflexivity.
Defined.

(** The hook tests, replayed on the model.  Two events of two customers
    are uploaded in two calls, one per customer id, each with the indexed
    events of that customer, and nothing fails; a failing upload on two
    events of one customer at position 1000 marks both with error number
    10 after one call; an upload reporting index 0 leaves that one failed
    event. *)
Example test_send_events :
  let blob := Blob_init [fixtures.ev_1; fixtures.ev_2] "" None None in
  let r := send_events fixtures.upload_ok [] blob in
  r.2 = [mkCall "12345" [(0%nat, fixtures.ev_1)] (RecordFailures [] []);
         mkCall "12346" [(1%nat, fixtures.ev_2)] (RecordFailures [] [])] ∧
  length (failed_events r.1) = 0%nat.
Proof. by vm_compute. Qed.

Example test_send_events_request_failure :
  let blob := Blob_init [fixtures.ev_1; fixtures.ev_1] "" (Some 1000) None in
  let r := send_events fixtures.upload_down [] blob in
  length r.2 = 1%nat ∧
  failed_events r.1 = [(1000, fixtures.ev_1, 10); (1001, fixtures.ev_1, 10)].
Proof. by vm_compute. Qed.

Example test_send_events_partial_failure error_num :
  let blob := Blob_init [fixtures.ev_1; fixtures.ev_1] "" None None in
  let r := send_events
             (mkSink fixtures.customer_of
                (λ _ _ _, RecordFailures [(0%nat, error_num)] [])) [] blob in
  length r.2 = 1%nat ∧ failed_events r.1 = [(0, fixtures.ev_1, error_num)].
Proof. done. Qed.

(** A transport failure on the second customer: the first customer's call
    returned, the second raised, the third customer is never uploaded, and
    all three records are marked with the failure's code. *)
Example send_events_stops_at_failure :
  let ev_3 := [("customer_id", "12347")] in
  let blob := Blob_init [fixtures.ev_1; fixtures.ev_2; ev_3] "" None None in
  let r := send_events fixtures.upload_one_customer [] blob in
  r.2 = [mkCall "12345" [(0%nat, fixtures.ev_1)] (RecordFailures [] ["ack"]);
         mkCall "12346" [(1%nat, fixtures.ev_2)] (TransportError 10)] ∧
  failed_events r.1 =
    [(0, fixtures.ev_1, 10); (1, fixtures.ev_2, 10); (2, ev_3, 10)].
Proof. by vm_compute. Qed.

End sink_sender.

(** * Further properties *)

(** ** Runs of [execute] *)














(** ** Task ids *)




(** ** Every graph [create_dag] builds *)

Section every_graph.
Import base_dag.













End every_graph.

(** ** Typed lookups with [get_variable_value] *)

Section typed_lookups.
Import base_dag.












End typed_lookups.
